(** * update.py: scaffolding of OnDemand apps from a base repository

    A shallow embedding of [update.py].  The script reads [apps.json], and
    for every app that has no folder yet it creates the folder, copies four
    artifacts from a clone of the base repository, writes the eRuby
    variables to [vars.rb], renders two templates and removes the
    intermediate files.

    Python values are modelled by [pyval], exceptions by [exn], the file
    system by a finite map from paths to nodes, and every call that reaches
    the operating system is recorded in a trace.  What the script calls but
    does not define (the shell and the programs it starts, [json.loads],
    [repr] of strings and floats, the script's directory) is the interface
    [Host]; [os.path], [os.makedirs] and [open] are modelled after the
    Python library. *)

From Stdlib Require Import ZArith String Ascii List Lia DecimalString PrimFloat.
From stdpp Require Import base strings gmap list.
Import ListNotations.
Open Scope string_scope.
Set Warnings "-register-all".

(** ** Python values and exceptions *)

(** The values [json.load] produces.  A dict is an association list in
    insertion order; [dict_get] takes the first binding of a key. *)
Inductive pyval : Type :=
  | VNone
  | VBool (b : bool)
  | VInt (n : Z)
  | VFloat (x : float)
  | VStr (s : string)
  | VList (l : list pyval)
  | VDict (d : list (string * pyval)).

Inductive exn : Type :=
  | KeyError (k : string)
  | TypeError
  | AttributeError
  | AssertionError (msg : string)
  | CalledProcessError (rc : Z) (cmd : string)
  | FileExistsError (p : string)
  | FileNotFoundError (p : string)
  | NotADirectoryError (p : string)
  | IsADirectoryError (p : string)
  | OSError (p : string)
  | JSONDecodeError.

Inductive res (A : Type) : Type :=
  | Ok (a : A)
  | Raise (e : exn).
Arguments Ok {A} a.
Arguments Raise {A} e.

Definition res_bind {A B : Type} (r : res A) (k : A -> res B) : res B :=
  match r with
  | Ok a => k a
  | Raise e => Raise e
  end.

Declare Scope res_scope.
Delimit Scope res_scope with res.
Notation "'let?' x ':=' e 'in' k" := (res_bind e (fun x => k))
  (at level 10, x name, e at level 100, k at level 200) : res_scope.
Notation "'let?' ' p ':=' e 'in' k" :=
  (res_bind e (fun x => match x with p => k end))
  (at level 10, p strict pattern, e at level 100, k at level 200) : res_scope.

Fixpoint dict_get (k : string) (d : list (string * pyval)) : option pyval :=
  match d with
  | [] => None
  | (k', v) :: d' => if String.eqb k k' then Some v else dict_get k d'
  end.

(** [o[k]] for a string key [k]. *)
Definition getitem (o : pyval) (k : string) : res pyval :=
  match o with
  | VDict d =>
      match dict_get k d with
      | Some v => Ok v
      | None => Raise (KeyError k)
      end
  | _ => Raise TypeError
  end.

(** [o.get(k, dflt)]; only dicts have the method. *)
Definition get (o : pyval) (k : string) (dflt : pyval) : res pyval :=
  match o with
  | VDict d =>
      match dict_get k d with
      | Some v => Ok v
      | None => Ok dflt
      end
  | _ => Raise AttributeError
  end.

(** Truth value of an object, as [if x:] and [not x] take it. *)
Definition truthy (v : pyval) : bool :=
  match v with
  | VNone => false
  | VBool b => b
  | VInt n => negb (Z.eqb n 0)
  | VFloat x => negb (PrimFloat.eqb x 0%float)
  | VStr s => negb (String.eqb s "")
  | VList l => negb (Nat.eqb (List.length l) 0)
  | VDict d => negb (Nat.eqb (List.length d) 0)
  end.

Definition str_of_Z (n : Z) : string := NilZero.string_of_int (Z.to_int n).

Definition lower_ascii (c : ascii) : ascii :=
  let n := nat_of_ascii c in
  if andb (Nat.leb 65 n) (Nat.leb n 90) then ascii_of_nat (n + 32) else c.

(** [s.lower()] on the ASCII letters. *)
Fixpoint lower (s : string) : string :=
  match s with
  | EmptyString => EmptyString
  | String c s' => String (lower_ascii c) (lower s')
  end.

(** [s.startswith(p)] *)
Fixpoint startswith (p s : string) : bool :=
  match p with
  | EmptyString => true
  | String a p' =>
      match s with
      | EmptyString => false
      | String b s' => andb (Ascii.eqb a b) (startswith p' s')
      end
  end.

(** [it in s]: substring test on strings. *)
Fixpoint substring_of (it s : string) : bool :=
  orb (startswith it s)
      match s with
      | EmptyString => false
      | String _ s' => substring_of it s'
      end.

Definition is_str (k : string) (v : pyval) : bool :=
  match v with
  | VStr s => String.eqb s k
  | _ => false
  end.

(** [k in o] for a string [k]. *)
Definition contains (k : string) (o : pyval) : res bool :=
  match o with
  | VDict d => Ok (bool_decide (is_Some (dict_get k d)))
  | VList l => Ok (existsb (is_str k) l)
  | VStr s => Ok (substring_of k s)
  | _ => Raise TypeError
  end.

Fixpoint chars (s : string) : list pyval :=
  match s with
  | EmptyString => []
  | String c s' => VStr (String c EmptyString) :: chars s'
  end.

(** The items a [for] loop over [o] visits. *)
Definition iter (o : pyval) : res (list pyval) :=
  match o with
  | VList l => Ok l
  | VDict d => Ok (List.map (fun kv => VStr (fst kv)) d)
  | VStr s => Ok (chars s)
  | _ => Raise TypeError
  end.

(** ** Paths

    [posixpath.join] and [posixpath.split].  Paths are strings and are
    taken as written: [.], [..] and doubled slashes are not resolved. *)

Fixpoint endswith_slash (s : string) : bool :=
  match s with
  | EmptyString => false
  | String c EmptyString => Ascii.eqb c "/"
  | String _ s' => endswith_slash s'
  end.

(** [posixpath.join(a, b)] for two strings. *)
Definition path_join (a b : string) : string :=
  if startswith "/" b then b
  else if orb (String.eqb a "") (endswith_slash a) then a ++ b
  else a ++ "/" ++ b.

(** [os.path.join(a, v)]: a component that is not a [str] is a type error. *)
Definition os_path_join (a : string) (v : pyval) : res string :=
  match v with
  | VStr b => Ok (path_join a b)
  | _ => Raise TypeError
  end.

Fixpoint all_slashes (s : string) : bool :=
  match s with
  | EmptyString => true
  | String c s' => andb (Ascii.eqb c "/") (all_slashes s')
  end.

(** [s.rstrip('/')] *)
Fixpoint rstrip_slash (s : string) : string :=
  match s with
  | EmptyString => EmptyString
  | String c s' => if all_slashes s then EmptyString else String c (rstrip_slash s')
  end.

(** [p[:i]] and [p[i:]] for [i = p.rfind('/') + 1]. *)
Fixpoint rsplit_slash (p : string) : string * string :=
  match p with
  | EmptyString => (EmptyString, EmptyString)
  | String c p' =>
      let (h, t) := rsplit_slash p' in
      if Ascii.eqb c "/" then (String c h, t)
      else match h with
           | EmptyString => (EmptyString, String c t)
           | _ => (String c h, t)
           end
  end.

(** [posixpath.split(p)] *)
Definition path_split (p : string) : string * string :=
  let (head, tail) := rsplit_slash p in
  if andb (negb (String.eqb head "")) (negb (all_slashes head))
  then (rstrip_slash head, tail)
  else (head, tail).

(** ** The file system

    A finite map from paths to nodes.  A symbolic link is followed when it
    is the last component of a path, through at most 40 links; permissions
    are not modelled. *)

Inductive node : Type :=
  | File (content : string)
  | Dir
  | Symlink (target : string).

(** The root directory: a non-empty path of slashes. *)
Definition is_root (p : string) : bool :=
  andb (negb (String.eqb p "")) (all_slashes p).

(** [stat(2)]: the node a path leads to, through at most 40 links. *)
Fixpoint stat_fuel (fuel : nat) (fs : gmap string node) (p : string) : option (string * node) :=
  match fs !! p with
  | Some (Symlink t) =>
      match fuel with
      | O => None
      | S n => stat_fuel n fs t
      end
  | Some nd => Some (p, nd)
  | None => None
  end.

Definition stat (fs : gmap string node) (p : string) : option (string * node) :=
  if is_root p then Some (p, Dir) else stat_fuel 40 fs p.

(** The path that [open(p, "w")] writes: the end of the chain of links. *)
Fixpoint follow (fuel : nat) (fs : gmap string node) (p : string) : option string :=
  match fs !! p with
  | Some (Symlink t) =>
      match fuel with
      | O => None
      | S n => follow n fs t
      end
  | _ => Some p
  end.

(** [mkdir(2)] *)
Definition mkdir (p : string) (fs : gmap string node) : res (gmap string node) :=
  match fs !! p with
  | Some _ => Raise (FileExistsError p)
  | None =>
      if String.eqb p "" then Raise (FileNotFoundError p)
      else if is_root p then Raise (FileExistsError p)
      else
        let parent := fst (path_split p) in
        if String.eqb parent "" then Ok (<[p := Dir]> fs)
        else match stat fs parent with
             | Some (_, Dir) => Ok (<[p := Dir]> fs)
             | Some _ => Raise (NotADirectoryError p)
             | None => Raise (FileNotFoundError p)
             end
  end.

(** [os.makedirs(name)] with [exist_ok=False], as [os.py] defines it: the
    missing ancestors are made first, and stay when a later step fails. *)
Fixpoint makedirs_fuel (fuel : nat) (name : string) (fs : gmap string node)
  : gmap string node * res unit :=
  let mkdir_name fs0 :=
    match mkdir name fs0 with
    | Ok fs1 => (fs1, Ok tt)
    | Raise e => (fs0, Raise e)
    end in
  let (head0, tail0) := path_split name in
  let (head, tail) := if String.eqb tail0 "" then path_split head0 else (head0, tail0) in
  if andb (andb (negb (String.eqb head "")) (negb (String.eqb tail "")))
          (negb (bool_decide (is_Some (stat fs head))))
  then
    match fuel with
    | O => mkdir_name fs
    | S n =>
        match makedirs_fuel n head fs with
        | (fs', Ok _) | (fs', Raise (FileExistsError _)) =>
            if String.eqb tail "." then (fs', Ok tt) else mkdir_name fs'
        | (fs', Raise e) => (fs', Raise e)
        end
    end
  else mkdir_name fs.

(** ** Worlds and programs

    A world is the file system and the trace of the calls made so far.  A
    program takes a world to a world and a result or an exception. *)

Inductive event : Type :=
  | EvRead (p : string)
  | EvExists (p : string) (r : bool)
  | EvMakedirs (p : string)
  | EvWrite (p : string) (content : string)
  | EvExec (cmd : string) (rc : Z)
  | EvPrint (line : string).

Record world : Type := World {
  files : gmap string node;
  trace : list event
}.

Definition prog (A : Type) : Type := world -> world * res A.

Definition ret {A : Type} (a : A) : prog A := fun w => (w, Ok a).

Definition bind {A B : Type} (m : prog A) (k : A -> prog B) : prog B :=
  fun w =>
    match m w with
    | (w', Ok a) => k a w'
    | (w', Raise e) => (w', Raise e)
    end.

(** A pure step that may raise. *)
Definition lift {A : Type} (r : res A) : prog A := fun w => (w, r).

Definition emit (e : event) (w : world) : world :=
  World (files w) (trace w ++ [e]).

Declare Scope prog_scope.
Delimit Scope prog_scope with prog.
Notation "'let!' x ':=' e 'in' k" := (bind e (fun x => k))
  (at level 10, x name, e at level 100, k at level 200) : prog_scope.
Notation "'let!' ' p ':=' e 'in' k" :=
  (bind e (fun x => match x with p => k end))
  (at level 10, p strict pattern, e at level 100, k at level 200) : prog_scope.
Notation "e ;; k" := (bind e (fun _ => k))
  (at level 100, k at level 200, right associativity) : prog_scope.

(** [for x in l: body(x)] *)
Fixpoint for_each {A : Type} (l : list A) (body : A -> prog unit) : prog unit :=
  match l with
  | [] => ret tt
  | x :: l' => bind (body x) (fun _ => for_each l' body)
  end.

(** *** Calls into the operating system *)

(** [os.path.exists(p)] *)
Definition path_exists (p : string) : prog bool :=
  fun w =>
    let r := bool_decide (is_Some (stat (files w) p)) in
    (emit (EvExists p r) w, Ok r).

(** [os.makedirs(p)] *)
Definition os_makedirs (p : string) : prog unit :=
  fun w =>
    let (fs', r) := makedirs_fuel (String.length p) p (files w) in
    (World fs' (trace w ++ [EvMakedirs p]), r).

(** [with open(p, "w") as f: f.write(content)] *)
Definition write_file (p content : string) : prog unit :=
  fun w =>
    let w' := emit (EvWrite p content) w in
    match follow 40 (files w) p with
    | None => (w', Raise (OSError p))
    | Some q =>
        match files w !! q with
        | Some Dir => (w', Raise (IsADirectoryError p))
        | Some _ => (World (<[q := File content]> (files w)) (trace w'), Ok tt)
        | None =>
            let parent := fst (path_split q) in
            if String.eqb parent "" then
              (World (<[q := File content]> (files w)) (trace w'), Ok tt)
            else
              match stat (files w) parent with
              | Some (_, Dir) => (World (<[q := File content]> (files w)) (trace w'), Ok tt)
              | Some _ => (w', Raise (NotADirectoryError p))
              | None => (w', Raise (FileNotFoundError p))
              end
        end
    end.

(** [with open(p, "r") as f: f.read()] *)
Definition read_file (p : string) : prog string :=
  fun w =>
    let w' := emit (EvRead p) w in
    match stat (files w) p with
    | Some (_, File c) => (w', Ok c)
    | Some (_, Dir) => (w', Raise (IsADirectoryError p))
    | Some (_, Symlink _) => (w', Raise (OSError p))
    | None => (w', Raise (FileNotFoundError p))
    end.

(** [print(line)] *)
Definition print (line : string) : prog unit :=
  fun w => (emit (EvPrint line) w, Ok tt).

(** ** The script *)

(** What the script uses from its host. *)
Class Host : Type := {
  (** [os.path.dirname(os.path.abspath(__file__))] *)
  ROOT_DIR : string;
  (** [repr] of a float and of a string *)
  float_repr : float -> string;
  str_repr : string -> string;
  (** [json.loads]; [None] stands for a [JSONDecodeError] *)
  json_loads : string -> option pyval;
  (** [/bin/sh -c cmd]: the file system it leaves and its exit status *)
  sh : string -> gmap string node -> gmap string node * Z
}.

Section Script.
Context {host : Host}.
Open Scope prog_scope.

Definition APPS_DIR : string := path_join ROOT_DIR "apps".

(** [repr(v)] *)
Fixpoint repr (v : pyval) : string :=
  match v with
  | VNone => "None"
  | VBool true => "True"
  | VBool false => "False"
  | VInt n => str_of_Z n
  | VFloat x => float_repr x
  | VStr s => str_repr s
  | VList l => "[" ++ String.concat ", " (List.map repr l) ++ "]"
  | VDict d =>
      "{" ++ String.concat ", "
               (List.map (fun kv => str_repr (fst kv) ++ ": " ++ repr (snd kv)) d)
          ++ "}"
  end.

(** [str(v)], which is what an f-string field [{v}] inserts. *)
Definition str (v : pyval) : string :=
  match v with
  | VStr s => s
  | _ => repr v
  end.

(** Execute a shell command: [subprocess.check_call(cmd, shell=True)]. *)
Definition exec_shell (cmd : string) : prog unit :=
  fun w =>
    let (fs', rc) := sh cmd (files w) in
    let w' := World fs' (trace w ++ [EvExec cmd rc]) in
    if Z.eqb rc 0 then (w', Ok tt) else (w', Raise (CalledProcessError rc cmd)).

Definition nl : string := String (ascii_of_nat 10) EmptyString.

Definition artifacts : list string :=
  ["form.yml.erb"; "manifest.yml.erb"; "submit.yml.erb"; "template"].

(** Copies the base ondemand app from a github repository. *)
Definition copy_base_repo (base app : pyval) : prog unit :=
  let! git_dir := lift (getitem base "git_dir") in
  let! base_dir := lift (os_path_join ROOT_DIR git_dir) in
  let! present := path_exists base_dir in
  (if present then ret tt
   else
     let! git_branch := lift (getitem base "git_branch") in
     let! git_url := lift (getitem base "git_url") in
     exec_shell ("git clone --single-branch --branch " ++ str git_branch ++ " "
                   ++ str git_url ++ " " ++ base_dir)) ;;
  let! app_name := lift (getitem app "app_name") in
  let! app_dir := lift (os_path_join APPS_DIR app_name) in
  for_each artifacts (fun filename =>
    exec_shell ("cp -R " ++ base_dir ++ "/" ++ filename ++ " "
                  ++ app_dir ++ "/" ++ filename)).

(** The first half of [update_form_and_manifest] (lines 50 to 94): the
    app's folder and the list [erb_vars], one assignment per element, each
    [append] being one block of the concatenation.
    [app.get(k, base[k])] looks [base[k]] up before the call; [app] is a
    dict by then, since [app['title']] has succeeded. *)
Definition erb_vars (base app : pyval) : res (string * list string) :=
  (let? app_type := getitem base "app_type" in
   let? app_name := getitem app "app_name" in
   let? app_dir := os_path_join APPS_DIR app_name in
   let? title := getitem app "title" in
   let? name := getitem app "name" in
   let? base_custom := getitem base "use_custom_image_file" in
   let? use_custom_image_file := get app "use_custom_image_file" base_custom in
   let? base_vm_image := getitem base "vm_image" in
   let? vm_image := get app "vm_image" base_vm_image in
   let? base_image_select := get vm_image "select" (VBool false) in
   let? base_image := get vm_image "base_image" VNone in
   let? memory := get app "memory" (VDict []) in
   let? memory_value := getitem memory "value" in
   let? memory_select := get memory "select" (VBool false) in
   let? memory_min := get memory "min" VNone in
   let? memory_max := get memory "max" VNone in
   let? cpu := get app "cpu" (VDict []) in
   let? cpu_value := getitem cpu "value" in
   let? cpu_select := get cpu "select" (VBool false) in
   let? cpu_min := get cpu "min" VNone in
   let? cpu_max := get cpu "max" VNone in
   Ok (app_dir,
       List.concat
         [ ["@title = '" ++ str title ++ "'"];
           ["@name = '" ++ str name ++ "'"];
           (if truthy memory_select then
              ["@custom_memory_per_node_select = true";
               "@custom_memory_per_node_min = " ++ str memory_min;
               "@custom_memory_per_node_max = " ++ str memory_max]
            else []);
           ["@custom_memory_per_node = " ++ str memory_value];
           (if truthy cpu_select then
              ["@custom_num_cores_select = true";
               "@custom_num_cores_min = " ++ str cpu_min;
               "@custom_num_cores_max = " ++ str cpu_max]
            else []);
           ["@custom_num_cores = " ++ str cpu_value];
           (if negb (truthy base_image_select) then
              ["@base_image_select = false";
               "@base_image = " ++ str base_image]
            else
              ["@base_image_select = true"]);
           ["@use_custom_image_file = " ++ lower (str use_custom_image_file)] ]))%res.

(** Updates the form.yml and manifest.yml for the app. *)
Definition update_form_and_manifest (base app : pyval) : prog unit :=
  let! '(app_dir, vars) := lift (erb_vars base app) in
  let erb_vars_file := path_join app_dir "vars.rb" in
  write_file erb_vars_file (String.concat nl vars ++ nl) ;;
  exec_shell ("erb -T - -r " ++ erb_vars_file ++ " " ++ app_dir ++ "/form.yml.erb > "
                ++ app_dir ++ "/form.yml") ;;
  exec_shell ("erb -T - -r " ++ erb_vars_file ++ " " ++ app_dir ++ "/manifest.yml.erb > "
                ++ app_dir ++ "/manifest.yml") ;;
  exec_shell ("rm " ++ app_dir ++ "/form.yml.erb") ;;
  exec_shell ("rm " ++ app_dir ++ "/manifest.yml.erb") ;;
  exec_shell ("rm " ++ erb_vars_file).

(** Creates the ondemand app folder.  If the app folder already exists,
    it will not overwrite it. *)
Definition create_app (base app : pyval) : prog bool :=
  let! app_name := lift (getitem app "app_name") in
  let! dest := lift (os_path_join APPS_DIR app_name) in
  let! present := path_exists dest in
  if present then ret false
  else
    os_makedirs dest ;;
    copy_base_repo base app ;;
    update_form_and_manifest base app ;;
    ret true.

Definition base_keys : list string :=
  ["app_type"; "git_url"; "git_dir"; "git_branch"; "vm_image"; "use_custom_image_file"].

Definition app_keys : list string :=
  ["app_name"; "title"; "name"; "cpu"; "memory"].

(** [for key in keys: assert key in o, msg(key)] *)
Fixpoint assert_keys (keys : list string) (o : pyval) (msg : string -> string) : res unit :=
  match keys with
  | [] => Ok tt
  | key :: keys' =>
      (let? present := contains key o in
       if present then assert_keys keys' o msg
       else Raise (AssertionError (msg key)))%res
  end.

(** [for i, app in enumerate(apps): for key in app_keys: assert ...] *)
Fixpoint check_apps (i : nat) (apps : list pyval) : res unit :=
  match apps with
  | [] => Ok tt
  | app :: apps' =>
      (let? _ := assert_keys app_keys app (fun key =>
                   "App " ++ str_of_Z (Z.of_nat i) ++ " is missing required attribute: "
                     ++ key ++ " " ++ str app) in
       check_apps (S i) apps')%res
  end.

(** The quick sanity check of [load_apps] (lines 121 to 128). *)
Definition sanity_check (data : pyval) : res pyval :=
  (let? base := getitem data "base" in
   let? _ := assert_keys base_keys base (fun key =>
               "Base missing required attribute: " ++ key) in
   let? apps := getitem data "apps" in
   let? items := iter apps in
   let? _ := check_apps 0 items in
   Ok data)%res.

(** Loads JSON file that defines the app configurations. *)
Definition load_apps : prog pyval :=
  let! text := read_file (path_join ROOT_DIR "apps.json") in
  let! data := lift (match json_loads text with
                     | Some d => Ok d
                     | None => Raise JSONDecodeError
                     end) in
  lift (sanity_check data).

(** One turn of the loop of [main]. *)
Definition main_step (data app : pyval) : prog unit :=
  let! base := lift (getitem data "base") in
  let! created := create_app base app in
  let! app_name := lift (getitem app "app_name") in
  if created then print ("Created " ++ str app_name)
  else print ("Skipped " ++ str app_name ++ " -- already created").

(** The loop of [main] over the apps of [data]. *)
Definition main_loop (data : pyval) (items : list pyval) : prog unit :=
  for_each items (main_step data).

Definition main : prog unit :=
  let! data := load_apps in
  let! apps := lift (getitem data "apps") in
  let! items := lift (iter apps) in
  main_loop data items.

End Script.

(** ** Reading worlds and traces *)

Section Observations.
Context {host : Host}.



(** The folder of the app named [name]. *)
Definition dest_of (name : string) : string := path_join APPS_DIR name.



(** The dict [o] has every key of [keys]. *)
Definition has_keys (keys : list string) (o : pyval) : bool :=
  match o with
  | VDict d => forallb (fun k => bool_decide (is_Some (dict_get k d))) keys
  | _ => false
  end.

Definition is_dict (o : pyval) : Prop :=
  match o with
  | VDict _ => True
  | _ => False
  end.

(** The path of the configuration file. *)
Definition config_path : string := path_join ROOT_DIR "apps.json".

(** The apps of a configuration, as the loop of [main] visits them. *)
Definition apps_of (data : pyval) : res (list pyval) :=
  (let? apps := getitem data "apps" in iter apps)%res.

(** The name of an app, when it is a string. *)
Definition named (app : pyval) (name : string) : Prop :=
  getitem app "app_name" = Ok (VStr name).


(** Every event [m] adds to the trace satisfies [φ]. *)
Definition emits_only {A : Type} (φ : event -> Prop) (m : prog A) : Prop :=
  forall w, exists evs, trace (fst (m w)) = (trace w ++ evs)%list /\ Forall φ evs.




(** The command [copy_base_repo] clones the base repository with. *)
Definition clone_command (base : pyval) (base_dir : string) : res string :=
  (let? git_branch := getitem base "git_branch" in
   let? git_url := getitem base "git_url" in
   Ok ("git clone --single-branch --branch " ++ str git_branch ++ " "
         ++ str git_url ++ " " ++ base_dir))%res.

(** An event that is no part of provisioning or scaffolding a folder: no
    existence check, no [makedirs], no [git clone]. *)
Definition not_provisioning (e : event) : Prop :=
  match e with
  | EvExists _ _ => False
  | EvMakedirs _ => False
  | EvExec cmd _ => startswith "git clone " cmd = false
  | _ => True
  end.

(** The existence checks of [p] among a list of events. *)
Definition checks_of (p : string) (evs : list event) : list event :=
  List.filter (fun e => match e with
                        | EvExists q _ => String.eqb p q
                        | _ => false
                        end) evs.

(** The command that renders [app_dir/f.erb] to [app_dir/f]. *)
Definition render_command (app_dir f : string) : string :=
  "erb -T - -r " ++ path_join app_dir "vars.rb" ++ " " ++ app_dir ++ "/" ++ f
    ++ ".erb > " ++ app_dir ++ "/" ++ f.




End Observations.

(** ** A sample host

    A small shell that knows the four commands the script issues, used to
    run the script on concrete configurations. *)

Fixpoint words_from (cur : string) (s : string) : list string :=
  match s with
  | EmptyString => if String.eqb cur "" then [] else [cur]
  | String c s' =>
      if Ascii.eqb c " " then
        (if String.eqb cur "" then words_from "" s' else cur :: words_from "" s')
      else words_from (cur ++ String c EmptyString) s'
  end.

Definition words (s : string) : list string := words_from "" s.

Definition sample_repo (dir : string) (fs : gmap string node) : gmap string node :=
  <[dir ++ "/template" := Dir]>
  (<[dir ++ "/submit.yml.erb" := File "script: <%= @name %>"]>
  (<[dir ++ "/manifest.yml.erb" := File "name: <%= @name %>"]>
  (<[dir ++ "/form.yml.erb" := File "title: <%= @title %>"]>
  (<[dir := Dir]> fs)))).

Definition sample_sh (cmd : string) (fs : gmap string node) : gmap string node * Z :=
  match words cmd with
  | ["git"; "clone"; "--single-branch"; "--branch"; branch; url; dir] =>
      if String.eqb url "https://example/repo.git" then (sample_repo dir fs, 0%Z)
      else (fs, 128%Z)
  | ["cp"; "-R"; src; dst] =>
      match fs !! src with
      | Some nd => (<[dst := nd]> fs, 0%Z)
      | None => (fs, 1%Z)
      end
  | "cp" :: _ => (fs, 1%Z)
  | ["erb"; "-T"; "-"; "-r"; vars; tmpl; ">"; out] =>
      match fs !! vars, fs !! tmpl with
      | Some (File v), Some (File t) =>
          if String.eqb t "<% raise %>" then (<[out := File ""]> fs, 1%Z)
          else (<[out := File (v ++ t)]> fs, 0%Z)
      | _, _ => (<[out := File ""]> fs, 1%Z)
      end
  | ["rm"; p] =>
      match fs !! p with
      | Some (File _) => (delete p fs, 0%Z)
      | _ => (fs, 1%Z)
      end
  | _ => (fs, 127%Z)
  end.

Definition sample_base : pyval :=
  VDict [("app_type", VStr "windows_vm");
         ("git_url", VStr "https://example/repo.git");
         ("git_dir", VStr "base1");
         ("git_branch", VStr "main");
         ("vm_image", VDict [("select", VBool false); ("base_image", VStr "centos7")]);
         ("use_custom_image_file", VBool false)].

Definition myapp : pyval :=
  VDict [("app_name", VStr "myapp"); ("title", VStr "My App"); ("name", VStr "myapp");
         ("cpu", VDict [("value", VInt 2)]);
         ("memory", VDict [("value", VInt 4096)])].

Definition bigapp : pyval :=
  VDict [("app_name", VStr "bigapp"); ("title", VStr "Big App"); ("name", VStr "bigapp");
         ("cpu", VDict [("value", VInt 4); ("select", VBool true);
                        ("min", VInt 1); ("max", VInt 8)]);
         ("memory", VDict [("value", VInt 8192); ("select", VBool true);
                           ("min", VInt 1024); ("max", VInt 16384)]);
         ("vm_image", VDict [("select", VBool true)]);
         ("use_custom_image_file", VBool true)].

Definition config (apps : list pyval) : pyval :=
  VDict [("base", sample_base); ("apps", VList apps)].

Definition badapp : pyval :=
  VDict [("app_name", VStr "bad app"); ("title", VStr "Bad App"); ("name", VStr "bad");
         ("cpu", VDict [("value", VInt 1)]);
         ("memory", VDict [("value", VInt 512)])].

(** The sample [json.loads] knows four documents by name. *)
Definition sample_json_loads (text : string) : option pyval :=
  if String.eqb text "one" then Some (config [myapp])
  else if String.eqb text "two" then Some (config [myapp; bigapp])
  else if String.eqb text "three" then Some (config [myapp; badapp; bigapp])
  else if String.eqb text "nobase" then Some (VDict [("base", VDict []); ("apps", VList [])])
  else None.

Definition sample_host : Host := {|
  ROOT_DIR := "/srv";
  float_repr := fun _ => "0.0";
  str_repr := fun s => "'" ++ s ++ "'";
  json_loads := sample_json_loads;
  sh := sample_sh
|}.




(** A fresh checkout: only the configuration file. *)
Definition fresh (cfg : string) : world :=
  World (<["/srv/apps.json" := File cfg]> (<["/srv" := Dir]> ∅)) [].

(** The world a first run on the two sample apps leaves. *)
Definition after_first_run : world :=
  fst (main (host := sample_host) (fresh "two")).

(** The variable lists of the two sample apps. *)
Definition myapp_vars : list string :=
  ["@title = 'My App'"; "@name = 'myapp'";
   "@custom_memory_per_node = 4096"; "@custom_num_cores = 2";
   "@base_image_select = false"; "@base_image = centos7";
   "@use_custom_image_file = false"].

Definition bigapp_vars : list string :=
  ["@title = 'Big App'"; "@name = 'bigapp'";
   "@custom_memory_per_node_select = true";
   "@custom_memory_per_node_min = 1024";
   "@custom_memory_per_node_max = 16384";
   "@custom_memory_per_node = 8192";
   "@custom_num_cores_select = true"; "@custom_num_cores_min = 1";
   "@custom_num_cores_max = 8"; "@custom_num_cores = 4";
   "@base_image_select = true"; "@use_custom_image_file = true"].

(** ** Reading the variable list *)

(** The elements of a list of eRuby variable lines that assign [@var]. *)
Definition lines_of (var : string) (vars : list string) : list string :=
  List.filter (startswith ("@" ++ var ++ " = ")) vars.

(** The [select] field of a dimension or image is present and true, as
    [if select:] takes it; for a JSON boolean that is the boolean. *)
Definition select_on (o : pyval) : bool :=
  match o with
  | VDict d =>
      match dict_get "select" d with
      | Some v => truthy v
      | None => false
      end
  | _ => false
  end.

Section Variables_of_an_app.
Context {host : Host}.

(** What the variable list says about one resource dimension [dim],
    whose variables are named after [var]. *)
Definition bounds_emitted (var : string) (dim : pyval) (vars : list string) : Prop :=
  if select_on dim then
    lines_of (var ++ "_select") vars = ["@" ++ var ++ "_select = true"] /\
    (exists lo, get dim "min" VNone = Ok lo /\
       lines_of (var ++ "_min") vars = ["@" ++ var ++ "_min = " ++ str lo]) /\
    (exists hi, get dim "max" VNone = Ok hi /\
       lines_of (var ++ "_max") vars = ["@" ++ var ++ "_max = " ++ str hi])
  else
    lines_of (var ++ "_select") vars = [] /\
    lines_of (var ++ "_min") vars = [] /\
    lines_of (var ++ "_max") vars = [].

(** The image an app runs: its own [vm_image] if present, else the base's. *)
Definition effective_vm_image (base app : pyval) : res pyval :=
  (let? base_vm_image := getitem base "vm_image" in
   get app "vm_image" base_vm_image)%res.

End Variables_of_an_app.

(** ** More sample apps *)

(** Resource ranges switched on with no bounds given, and an image of its
    own without a [base_image]. *)
Definition openapp : pyval :=
  VDict [("app_name", VStr "openapp"); ("title", VStr "Open App"); ("name", VStr "open");
         ("cpu", VDict [("value", VInt 2); ("select", VBool true)]);
         ("memory", VDict [("value", VInt 4096); ("select", VBool true)]);
         ("vm_image", VDict [])].

(** The five required keys are there, but [cpu] has no [value]. *)
Definition novalue : pyval :=
  VDict [("app_name", VStr "novalue"); ("title", VStr "No Value"); ("name", VStr "novalue");
         ("cpu", VDict []);
         ("memory", VDict [("value", VInt 4096)])].

(** An [app_name] that is a number. *)
Definition numbered : pyval :=
  VDict [("app_name", VInt 7); ("title", VStr "Seven"); ("name", VStr "seven");
         ("cpu", VDict [("value", VInt 1)]);
         ("memory", VDict [("value", VInt 512)])].

Section Commands.
Context {host : Host}.

(** The command that copies the artifact [f] into an app's folder. *)
Definition copy_command (base_dir app_dir f : string) : string :=
  "cp -R " ++ base_dir ++ "/" ++ f ++ " " ++ app_dir ++ "/" ++ f.

(** What a successful [update_form_and_manifest] adds to the trace. *)
Definition render_events (app_dir content : string) : list event :=
  [EvWrite (path_join app_dir "vars.rb") content;
   EvExec (render_command app_dir "form.yml") 0;
   EvExec (render_command app_dir "manifest.yml") 0;
   EvExec ("rm " ++ app_dir ++ "/form.yml.erb") 0;
   EvExec ("rm " ++ app_dir ++ "/manifest.yml.erb") 0;
   EvExec ("rm " ++ path_join app_dir "vars.rb") 0].

End Commands.

(** The variable list of [openapp]. *)
Definition openapp_vars : list string :=
  Eval vm_compute in
    match erb_vars (host := sample_host) sample_base openapp with
    | Ok (_, vars) => vars
    | Raise _ => []
    end.

(** The sample base with another repository. *)
Definition other_base : pyval :=
  VDict [("app_type", VStr "linux_vm");
         ("git_url", VStr "https://example/other.git");
         ("git_dir", VStr "base2");
         ("git_branch", VStr "dev");
         ("vm_image", VDict [("select", VBool false); ("base_image", VStr "centos7")]);
         ("use_custom_image_file", VBool false)].

(** A base with [app_type] alone, and an app with [app_name] alone. *)
Definition thin_base : pyval := VDict [("app_type", VStr "windows_vm")].

Definition thin_app : pyval := VDict [("app_name", VStr "thin")].

(** The sample host with two more documents. *)
Definition more_host : Host := {|
  ROOT_DIR := "/srv";
  float_repr := fun _ => "0.0";
  str_repr := fun s => "'" ++ s ++ "'";
  json_loads := fun text =>
    if String.eqb text "numbered" then Some (config [numbered; myapp])
    else if String.eqb text "empty" then Some (config [])
    else sample_json_loads text;
  sh := sample_sh
|}.

(** * Properties *)

Section Variables_of_an_app_facts.
Context {host : Host}.

Lemma get_select o v :
  get o "select" (VBool false) = Ok v -> truthy v = select_on o.
Proof.
  destruct o; simpl; try discriminate.
  destruct (dict_get "select" d); intros [= <-]; reflexivity.
Qed.

Ltac res_step H :=
  match type of H with
  | res_bind ?r _ = Ok _ =>
      let E := fresh "E" in
      destruct r eqn:E; simpl in H; [ | discriminate H ]
  end.

(** The shape of a successful [erb_vars]: every field it read, and the list
    it built. *)
Lemma erb_vars_inv base app app_dir vars :
  erb_vars base app = Ok (app_dir, vars) ->
  exists title name custom vm_image image_select base_image
         memory memory_value memory_min memory_max
         cpu cpu_value cpu_min cpu_max,
    getitem app "title" = Ok title /\
    getitem app "name" = Ok name /\
    (let? d := getitem base "use_custom_image_file" in
     get app "use_custom_image_file" d)%res = Ok custom /\
    effective_vm_image base app = Ok vm_image /\
    get vm_image "select" (VBool false) = Ok image_select /\
    get vm_image "base_image" VNone = Ok base_image /\
    get app "memory" (VDict []) = Ok memory /\
    getitem memory "value" = Ok memory_value /\
    get memory "min" VNone = Ok memory_min /\
    get memory "max" VNone = Ok memory_max /\
    get app "cpu" (VDict []) = Ok cpu /\
    getitem cpu "value" = Ok cpu_value /\
    get cpu "min" VNone = Ok cpu_min /\
    get cpu "max" VNone = Ok cpu_max /\
    vars =
      List.concat
        [ ["@title = '" ++ str title ++ "'"];
          ["@name = '" ++ str name ++ "'"];
          (if select_on memory then
             ["@custom_memory_per_node_select = true";
              "@custom_memory_per_node_min = " ++ str memory_min;
              "@custom_memory_per_node_max = " ++ str memory_max]
           else []);
          ["@custom_memory_per_node = " ++ str memory_value];
          (if select_on cpu then
             ["@custom_num_cores_select = true";
              "@custom_num_cores_min = " ++ str cpu_min;
              "@custom_num_cores_max = " ++ str cpu_max]
           else []);
          ["@custom_num_cores = " ++ str cpu_value];
          (if negb (select_on vm_image) then
             ["@base_image_select = false";
              "@base_image = " ++ str base_image]
           else
             ["@base_image_select = true"]);
          ["@use_custom_image_file = " ++ lower (str custom)] ].
Proof.
  unfold erb_vars, effective_vm_image. intros H.
  repeat res_step H.
  injection H as <- <-.
  rewrite (get_select _ _ E8), (get_select _ _ E12), (get_select _ _ E17).
  do 14 eexists. repeat (split; [ eassumption || reflexivity | ]).
  reflexivity.
Qed.

Ltac name_strings :=
  repeat match goal with
         | |- context [str ?v] =>
             let s := fresh "s" in generalize (str v); intros s
         | |- context [lower ?v] =>
             let s := fresh "s" in generalize (lower v); intros s
         end.

(** C1. Whenever the variables of an app are derived, the list holds exactly
    one assignment of the memory value to [@custom_memory_per_node] and one
    of the cpu value to [@custom_num_cores]; and for each of the two
    dimensions the [_select], [_min] and [_max] variables are assigned
    (once each, [_select] to true, the bounds to the dimension's [min] and
    [max]) when the dimension's [select] is present and true, and none of
    the three appears when [select] is false or absent. *)
Theorem resource_variables base app app_dir vars :
  erb_vars base app = Ok (app_dir, vars) ->
  exists memory memory_value cpu cpu_value,
    get app "memory" (VDict []) = Ok memory /\
    getitem memory "value" = Ok memory_value /\
    get app "cpu" (VDict []) = Ok cpu /\
    getitem cpu "value" = Ok cpu_value /\
    lines_of "custom_memory_per_node" vars
      = ["@custom_memory_per_node = " ++ str memory_value] /\
    lines_of "custom_num_cores" vars
      = ["@custom_num_cores = " ++ str cpu_value] /\
    bounds_emitted "custom_memory_per_node" memory vars /\
    bounds_emitted "custom_num_cores" cpu vars.
Proof.
  intros H.
  destruct (erb_vars_inv _ _ _ _ H)
    as (title & name & custom & vm & isel & bimg & mem & mv & mlo & mhi
        & cpu & cv & clo & chi & _ & _ & _ & _ & _ & _
        & Hmem & Hmv & Hmlo & Hmhi & Hcpu & Hcv & Hclo & Hchi & ->).
  exists mem, mv, cpu, cv.
  repeat (split; [ assumption | ]).
  unfold bounds_emitted.
  destruct (select_on mem), (select_on cpu), (select_on vm); simpl negb; cbv iota.
  all: repeat split.
  all: try (eexists; split; [ eassumption | ]).
  all: name_strings; vm_compute; reflexivity.
Qed.

(** C2. Whenever the variables of an app are derived, with the effective
    image being the app's [vm_image] if present and the base's otherwise:
    if the image's [select] is true the list assigns [@base_image_select]
    once, to true, and never assigns [@base_image]; if [select] is false or
    absent it assigns [@base_image_select] once, to false, and
    [@base_image] once, to the image's [base_image]. *)
Theorem image_variables base app app_dir vars :
  erb_vars base app = Ok (app_dir, vars) ->
  exists vm_image base_image,
    effective_vm_image base app = Ok vm_image /\
    get vm_image "base_image" VNone = Ok base_image /\
    if select_on vm_image then
      lines_of "base_image_select" vars = ["@base_image_select = true"] /\
      lines_of "base_image" vars = []
    else
      lines_of "base_image_select" vars = ["@base_image_select = false"] /\
      lines_of "base_image" vars = ["@base_image = " ++ str base_image].
Proof.
  intros H.
  destruct (erb_vars_inv _ _ _ _ H)
    as (title & name & custom & vm & isel & bimg & mem & mv & mlo & mhi
        & cpu & cv & clo & chi & _ & _ & _ & Hvm & _ & Hbimg
        & _ & _ & _ & _ & _ & _ & _ & _ & ->).
  exists vm, bimg.
  repeat (split; [ assumption | ]).
  destruct (select_on mem), (select_on cpu), (select_on vm); simpl negb; cbv iota.
  all: split; name_strings; vm_compute; reflexivity.
Qed.


End Variables_of_an_app_facts.

Lemma resource_variables_witness :
  exists memory memory_value cpu cpu_value,
    get bigapp "memory" (VDict []) = Ok memory /\
    getitem memory "value" = Ok memory_value /\
    get bigapp "cpu" (VDict []) = Ok cpu /\
    getitem cpu "value" = Ok cpu_value /\
    lines_of "custom_memory_per_node" bigapp_vars
      = ["@custom_memory_per_node = " ++ str (host := sample_host) memory_value] /\
    lines_of "custom_num_cores" bigapp_vars
      = ["@custom_num_cores = " ++ str (host := sample_host) cpu_value] /\
    bounds_emitted (host := sample_host) "custom_memory_per_node" memory bigapp_vars /\
    bounds_emitted (host := sample_host) "custom_num_cores" cpu bigapp_vars.
Proof.
  apply (@resource_variables sample_host sample_base bigapp "/srv/apps/bigapp").
  vm_compute. reflexivity.
Defined.

Lemma image_variables_witness :
  exists vm_image base_image,
    effective_vm_image sample_base myapp = Ok vm_image /\
    get vm_image "base_image" VNone = Ok base_image /\
    if select_on vm_image then
      lines_of "base_image_select" myapp_vars = ["@base_image_select = true"] /\
      lines_of "base_image" myapp_vars = []
    else
      lines_of "base_image_select" myapp_vars = ["@base_image_select = false"] /\
      lines_of "base_image" myapp_vars
        = ["@base_image = " ++ str (host := sample_host) base_image].
Proof.
  apply (@image_variables sample_host sample_base myapp "/srv/apps/myapp").
  vm_compute. reflexivity.
Defined.


(** ** The fuel of [makedirs]

    [os.makedirs] recurses on the head of the path, which is shorter than
    the path; the length of the path is fuel enough. *)

Lemma rsplit_slash_length p h t :
  rsplit_slash p = (h, t) -> String.length h + String.length t = String.length p.
Proof.
  revert h t. induction p as [| c p IH]; intros h t; simpl.
  - intros [= <- <-]. reflexivity.
  - destruct (rsplit_slash p) as [h' t']. specialize (IH _ _ eq_refl).
    destruct (Ascii.eqb c "/"); [ | destruct h' ]; intros [= <- <-]; simpl in *; lia.
Qed.

Lemma rstrip_slash_length s : String.length (rstrip_slash s) <= String.length s.
Proof.
  induction s as [| c s IH]; [ reflexivity | ].
  cbn [rstrip_slash]. destruct (all_slashes (String c s)); simpl; lia.
Qed.

Lemma path_split_length p h t :
  path_split p = (h, t) -> String.length h + String.length t <= String.length p.
Proof.
  unfold path_split. destruct (rsplit_slash p) as [h' t'] eqn:E.
  apply rsplit_slash_length in E.
  destruct (andb _ _); intros [= <- <-]; [ | lia ].
  pose proof (rstrip_slash_length h'). lia.
Qed.

Lemma string_length_pos s : String.eqb s "" = false -> 0 < String.length s.
Proof. destruct s; [ discriminate | simpl; lia ]. Qed.

Lemma makedirs_fuel_irrelevant n m name fs :
  String.length name <= n -> String.length name <= m ->
  makedirs_fuel n name fs = makedirs_fuel m name fs.
Proof.
  revert m name fs. induction n as [| n IH]; intros m name fs Hn Hm.
  - destruct name; [ | simpl in Hn; lia ]. destruct m; reflexivity.
  - destruct m as [| m].
    { destruct name; [ reflexivity | simpl in Hm; lia ]. }
    cbn [makedirs_fuel].
    destruct (path_split name) as [head0 tail0] eqn:E0.
    pose proof (path_split_length _ _ _ E0) as L0.
    destruct (path_split head0) as [head1 tail1] eqn:E1.
    pose proof (path_split_length _ _ _ E1) as L1.
    assert (Hrec : forall head tail,
              String.length head + String.length tail <= String.length name ->
              String.eqb tail "" = false ->
              makedirs_fuel n head fs = makedirs_fuel m head fs).
    { intros head tail L Ht. apply string_length_pos in Ht. apply IH; lia. }
    destruct (String.eqb tail0 "") eqn:T0.
    + destruct (String.eqb tail1 "") eqn:T1.
      * rewrite andb_false_r. reflexivity.
      * rewrite (Hrec head1 tail1) by (lia || assumption). reflexivity.
    + rewrite (Hrec head0 tail0) by (lia || assumption). reflexivity.
Qed.

(** ** Running programs *)

Section Running.
Context {host : Host}.
Open Scope prog_scope.

Lemma bind_ok {A B : Type} (m : prog A) (k : A -> prog B) w w' a :
  m w = (w', Ok a) -> bind m k w = k a w'.
Proof. unfold bind. intros ->. reflexivity. Qed.

Lemma bind_raise {A B : Type} (m : prog A) (k : A -> prog B) w w' e :
  m w = (w', Raise e) -> bind m k w = (w', Raise e).
Proof. unfold bind. intros ->. reflexivity. Qed.

Lemma bind_inv {A B : Type} (m : prog A) (k : A -> prog B) w w' r :
  bind m k w = (w', r) ->
  (exists e, m w = (w', Raise e) /\ r = Raise e) \/
  (exists w1 a, m w = (w1, Ok a) /\ k a w1 = (w', r)).
Proof.
  unfold bind. destruct (m w) as [w1 [a | e]]; intros H.
  - right. eauto.
  - left. injection H as <- <-. eauto.
Qed.



(** *** Composition of [emits_only] *)

Lemma emits_only_ret {A : Type} φ (a : A) : emits_only φ (ret a).
Proof. intros w. exists []. simpl. rewrite app_nil_r. auto. Qed.

Lemma emits_only_lift {A : Type} φ (r : res A) : emits_only φ (lift r).
Proof. intros w. exists []. simpl. rewrite app_nil_r. auto. Qed.

Lemma emits_only_bind {A B : Type} φ (m : prog A) (k : A -> prog B) :
  emits_only φ m -> (forall a, emits_only φ (k a)) -> emits_only φ (bind m k).
Proof.
  intros Hm Hk w. destruct (Hm w) as (evs1 & E1 & F1).
  unfold bind. destruct (m w) as [w1 [a | e]]; simpl in *.
  - destruct (Hk a w1) as (evs2 & E2 & F2).
    exists (evs1 ++ evs2)%list. rewrite E2, E1, app_assoc. split; [ reflexivity | ].
    apply Forall_app; auto.
  - exists evs1. auto.
Qed.

Lemma emits_only_for_each {A : Type} φ (l : list A) (body : A -> prog unit) :
  (forall x, emits_only φ (body x)) -> emits_only φ (for_each l body).
Proof.
  intros Hb. induction l as [| x l IH]; simpl.
  - apply emits_only_ret.
  - apply emits_only_bind; auto.
Qed.


Lemma emits_only_exec_shell φ cmd :
  (forall rc, φ (EvExec cmd rc)) -> emits_only φ (exec_shell cmd).
Proof.
  intros H w. unfold exec_shell. destruct (sh cmd (files w)) as [fs' rc].
  exists [EvExec cmd rc]. destruct (Z.eqb rc 0); simpl; (split; [ reflexivity | ]);
    repeat constructor; apply H.
Qed.


Lemma emits_only_write_file φ p content :
  φ (EvWrite p content) -> emits_only φ (write_file p content).
Proof.
  intros H w. exists [EvWrite p content].
  assert (Forall φ [EvWrite p content]) by (repeat constructor; exact H).
  unfold write_file.
  repeat match goal with
         | |- context [match ?x with _ => _ end] => destruct x
         end; simpl; auto.
Qed.



(** *** [create_app] and one turn of the loop *)

Lemma create_app_present base app name w :
  getitem app "app_name" = Ok (VStr name) ->
  is_Some (stat (files w) (dest_of name)) ->
  create_app base app w = (emit (EvExists (dest_of name) true) w, Ok false).
Proof.
  intros Hn Hs. unfold create_app, bind, lift, path_exists. rewrite Hn. simpl.
  fold (dest_of name). rewrite bool_decide_true by assumption. reflexivity.
Qed.

Lemma create_app_absent base app name w :
  getitem app "app_name" = Ok (VStr name) ->
  stat (files w) (dest_of name) = None ->
  create_app base app w =
    (os_makedirs (dest_of name) ;;
     copy_base_repo base app ;;
     update_form_and_manifest base app ;;
     ret true) (emit (EvExists (dest_of name) false) w).
Proof.
  intros Hn Hs. unfold create_app at 1, lift, path_exists.
  unfold bind at 1 2 3. rewrite Hn. simpl. fold (dest_of name).
  rewrite bool_decide_false; [ reflexivity | ].
  rewrite Hs. intros [x Hx]. discriminate.
Qed.



(** What a returning [create_app] has seen and done. *)
Lemma create_app_inv base app w wc created :
  create_app base app w = (wc, Ok created) ->
  exists name,
    getitem app "app_name" = Ok (VStr name) /\
    if created then stat (files w) (dest_of name) = None
    else is_Some (stat (files w) (dest_of name)) /\
         wc = emit (EvExists (dest_of name) true) w.
Proof.
  intros H.
  destruct (getitem app "app_name") as [v | e] eqn:Hn.
  2:{ unfold create_app, bind, lift in H. rewrite Hn in H. discriminate. }
  destruct v; try (unfold create_app, bind, lift in H; rewrite Hn in H; discriminate).
  exists s. split; [ reflexivity | ].
  destruct (stat (files w) (dest_of s)) as [x |] eqn:Hs.
  - rewrite (create_app_present _ _ _ _ Hn) in H by (rewrite Hs; eauto).
    injection H as <- <-. split; [ eauto | reflexivity ].
  - rewrite (create_app_absent _ _ _ _ Hn Hs) in H.
    destruct created; [ reflexivity | exfalso ].
    unfold bind, ret in H.
    repeat match type of H with
           | context [match ?x with _ => _ end] => destruct x
           end; discriminate.
Qed.









(** *** The base repository *)

Lemma copy_artifacts_quiet base_dir app_dir :
  emits_only not_provisioning
    (for_each artifacts (fun filename =>
       exec_shell ("cp -R " ++ base_dir ++ "/" ++ filename ++ " "
                     ++ app_dir ++ "/" ++ filename))).
Proof.
  apply emits_only_for_each. intros f. apply emits_only_exec_shell. intros rc.
  reflexivity.
Qed.

Lemma update_form_and_manifest_quiet base app :
  emits_only not_provisioning (update_form_and_manifest base app).
Proof.
  unfold update_form_and_manifest.
  repeat first
    [ apply emits_only_bind; [ | intros ? ]
    | apply emits_only_lift
    | apply emits_only_exec_shell; intros ?; reflexivity
    | apply emits_only_write_file; exact I
    | match goal with
      | |- emits_only _ (match ?x with _ => _ end) => destruct x
      end ].
Qed.

(** What [copy_base_repo] and everything after it add to the trace. *)
Lemma copy_base_repo_trace {B : Type} base app git_dir cmd (k : prog B) w :
  getitem base "git_dir" = Ok (VStr git_dir) ->
  clone_command base (path_join ROOT_DIR git_dir) = Ok cmd ->
  emits_only not_provisioning k ->
  let base_dir := path_join ROOT_DIR git_dir in
  let present := bool_decide (is_Some (stat (files w) base_dir)) in
  exists rest,
    trace (fst ((copy_base_repo base app ;; k) w))
      = (trace w ++ EvExists base_dir present :: rest)%list /\
    if present then Forall not_provisioning rest
    else exists rc rest',
           rest = EvExec cmd rc :: rest' /\
           Forall not_provisioning rest' /\
           (rc <> 0%Z -> rest' = []).
Proof.
  intros Hd Hc Hk base_dir present.
  unfold clone_command in Hc.
  destruct (getitem base "git_branch") as [branch |] eqn:Hbr; [ | discriminate ].
  destruct (getitem base "git_url") as [url |] eqn:Hu; [ | discriminate ].
  simpl in Hc. injection Hc as Hc. symmetry in Hc.
  assert (Hcopy : emits_only not_provisioning
            ((let! app_name := lift (getitem app "app_name") in
              let! app_dir := lift (os_path_join APPS_DIR app_name) in
              for_each artifacts (fun filename =>
                exec_shell ("cp -R " ++ base_dir ++ "/" ++ filename ++ " "
                              ++ app_dir ++ "/" ++ filename))) ;; k)).
  { repeat first [ apply copy_artifacts_quiet | exact Hk | apply emits_only_lift
                 | apply emits_only_bind; [ | intros ? ] ]. }
  set (restk := _ ;; k) in Hcopy.
  assert (Hrun : (copy_base_repo base app ;; k) w =
                 ((if present then ret tt else exec_shell cmd) ;; restk)
                   (emit (EvExists base_dir present) w)).
  { subst restk present base_dir cmd.
    unfold copy_base_repo, bind, lift, path_exists. rewrite Hd. simpl.
    destruct (bool_decide _); [ reflexivity | ].
    rewrite Hbr, Hu. simpl.
    match goal with
    | |- context [exec_shell ?c ?ww] => destruct (exec_shell c ww) as [? [[] | ?]]
    end; reflexivity. }
  rewrite Hrun. clear Hrun.
  set (w1 := emit (EvExists base_dir present) w).
  assert (Ht : trace w1 = (trace w ++ [EvExists base_dir present])%list) by reflexivity.
  clearbody w1. destruct present.
  - destruct (Hcopy w1) as (rest & E & F).
    exists rest. split; [ | exact F ].
    change (trace (fst (restk w1)) = (trace w ++ EvExists base_dir true :: rest)%list).
    rewrite E, Ht, <- app_assoc. reflexivity.
  - unfold bind, exec_shell.
    destruct (sh cmd (files w1)) as [fs' rc].
    destruct (Z.eqb_spec rc 0) as [-> | Hrc].
    + set (w2 := World fs' _).
      destruct (Hcopy w2) as (rest & E & F).
      exists (EvExec cmd 0 :: rest). split.
      * rewrite E. unfold w2. simpl. rewrite Ht, <- !app_assoc. reflexivity.
      * exists 0%Z, rest. split; [ reflexivity | ]. split; [ exact F | ].
        intros Hne. contradiction Hne. reflexivity.
    + exists [EvExec cmd rc]. split.
      * simpl. rewrite Ht, <- app_assoc. reflexivity.
      * exists rc, []. split; [ reflexivity | ]. split; [ constructor | reflexivity ].
Qed.

Lemma os_makedirs_trace p w w1 r :
  os_makedirs p w = (w1, r) -> trace w1 = (trace w ++ [EvMakedirs p])%list.
Proof.
  unfold os_makedirs. destruct (makedirs_fuel _ _ _) as [fs' r'].
  intros [= <- _]. reflexivity.
Qed.

(** C4 (as amended). The check of the base repository is part of every
    app's scaffolding, inside the loop.  For an app whose folder exists,
    [create_app] checks that folder and nothing else: the base repository
    is neither checked nor cloned.  For an app whose folder is missing and
    gets made, the events are: the check of the folder, [makedirs], one
    check of the base repository's path, then the clone if that path was
    missing (and nothing more if the clone fails), then only events that
    are no check, no [makedirs] and no clone. *)
Theorem provisioner_runs_per_created_app base app name git_dir cmd w :
  getitem app "app_name" = Ok (VStr name) ->
  getitem base "git_dir" = Ok (VStr git_dir) ->
  clone_command base (path_join ROOT_DIR git_dir) = Ok cmd ->
  let base_dir := path_join ROOT_DIR git_dir in
  let dest := dest_of name in
  (is_Some (stat (files w) dest) ->
   trace (fst (create_app base app w)) = (trace w ++ [EvExists dest true])%list) /\
  (forall w1,
     stat (files w) dest = None ->
     os_makedirs dest (emit (EvExists dest false) w) = (w1, Ok tt) ->
     let present := bool_decide (is_Some (stat (files w1) base_dir)) in
     exists rest,
       trace (fst (create_app base app w))
         = (trace w ++ [EvExists dest false; EvMakedirs dest; EvExists base_dir present]
              ++ rest)%list /\
       if present then Forall not_provisioning rest
       else exists rc rest',
              rest = EvExec cmd rc :: rest' /\
              Forall not_provisioning rest' /\
              (rc <> 0%Z -> rest' = [])).
Proof.
  intros Hn Hd Hc base_dir dest. split.
  - intros Hs. rewrite (create_app_present _ _ _ _ Hn Hs). reflexivity.
  - intros w1 Hs Hmk present.
    rewrite (create_app_absent _ _ _ _ Hn Hs).
    fold dest. rewrite (bind_ok _ _ _ _ _ Hmk).
    assert (Hk : emits_only not_provisioning
                   (update_form_and_manifest base app ;; ret true)).
    { apply emits_only_bind; [ apply update_form_and_manifest_quiet | ].
      intros _. apply emits_only_ret. }
    destruct (copy_base_repo_trace base app git_dir cmd _ w1 Hd Hc Hk)
      as (rest & E & F).
    exists rest. split; [ | exact F ].
    rewrite E. rewrite (os_makedirs_trace _ _ _ _ Hmk). simpl.
    rewrite <- !app_assoc. reflexivity.
Qed.

(** *** Errors *)










Lemma main_unfold w wl data apps items :
  load_apps w = (wl, Ok data) ->
  getitem data "apps" = Ok apps ->
  iter apps = Ok items ->
  main w = main_loop data items wl.
Proof.
  intros Hl Ha Hi. unfold main. rewrite (bind_ok _ _ _ _ _ Hl).
  unfold bind, lift. rewrite Ha, Hi. reflexivity.
Qed.


(** *** Loading the configuration *)

Lemma assert_keys_dict keys d msg :
  if has_keys keys (VDict d) then assert_keys keys (VDict d) msg = Ok tt
  else exists m, assert_keys keys (VDict d) msg = Raise (AssertionError m).
Proof.
  induction keys as [| k keys IH]; simpl; [ reflexivity | ].
  destruct (bool_decide (is_Some (dict_get k d))); simpl.
  - exact IH.
  - eauto.
Qed.

Lemma check_apps_dicts apps i :
  Forall is_dict apps ->
  if forallb (has_keys app_keys) apps then check_apps i apps = Ok tt
  else exists m, check_apps i apps = Raise (AssertionError m).
Proof.
  intros H. revert i. induction H as [| app apps Hd _ IH]; intros i; [ reflexivity | ].
  destruct app; try contradiction. cbn [forallb check_apps].
  pose proof (assert_keys_dict app_keys d
                (fun key => "App " ++ str_of_Z (Z.of_nat i)
                              ++ " is missing required attribute: " ++ key ++ " "
                              ++ str (VDict d))) as Hk.
  destruct (has_keys app_keys (VDict d)).
  - rewrite Hk. simpl. apply IH.
  - destruct Hk as (m & ->). simpl. eauto.
Qed.

Lemma load_apps_world w : fst (load_apps w) = emit (EvRead config_path) w.
Proof.
  unfold load_apps, bind, lift, read_file. fold config_path.
  destruct (stat (files w) config_path) as [[p [c | | t]] |]; try reflexivity.
  simpl. destruct (json_loads c); reflexivity.
Qed.

(** C7. Let the configuration file hold a document whose [base] is a
    mapping and whose [apps] is a list of mappings.  If the base has the
    six required keys and every app the five, [load_apps] returns the
    parsed document as it is; otherwise it raises an [AssertionError], and
    so does [main], in a world that differs from the initial one by the
    read of the configuration file alone.  In both cases [load_apps]
    changes no file. *)
Theorem load_apps_checks_keys w text data base apps :
  read_file config_path w = (emit (EvRead config_path) w, Ok text) ->
  json_loads text = Some data ->
  getitem data "base" = Ok (VDict base) ->
  getitem data "apps" = Ok (VList apps) ->
  Forall is_dict apps ->
  files (fst (load_apps w)) = files w /\
  if andb (has_keys base_keys (VDict base)) (forallb (has_keys app_keys) apps)
  then load_apps w = (emit (EvRead config_path) w, Ok data)
  else exists msg,
         load_apps w = (emit (EvRead config_path) w, Raise (AssertionError msg)) /\
         main w = (emit (EvRead config_path) w, Raise (AssertionError msg)).
Proof.
  intros Hr Hj Hb Ha Hd.
  split; [ rewrite load_apps_world; reflexivity | ].
  assert (Hl : load_apps w = (emit (EvRead config_path) w, sanity_check data)).
  { unfold load_apps. fold config_path. rewrite (bind_ok _ _ _ _ _ Hr).
    unfold bind, lift. rewrite Hj. reflexivity. }
  unfold sanity_check in Hl. rewrite Hb, Ha in Hl.
  cbv beta iota delta [res_bind iter] in Hl.
  pose proof (assert_keys_dict base_keys base
                (fun key => "Base missing required attribute: " ++ key)) as Hk.
  pose proof (check_apps_dicts apps 0 Hd) as Hc.
  destruct (has_keys base_keys (VDict base)).
  - rewrite Hk in Hl.
    destruct (forallb (has_keys app_keys) apps); simpl.
    + rewrite Hc in Hl. exact Hl.
    + destruct Hc as (m & Hc). rewrite Hc in Hl.
      exists m. split; [ exact Hl | ]. unfold main. apply bind_raise, Hl.
  - destruct Hk as (m & Hk). rewrite Hk in Hl.
    exists m. split; [ exact Hl | ]. unfold main. apply bind_raise, Hl.
Qed.

(** *** Rendering and cleanup *)


(** *** A second run *)

Lemma sanity_check_ok data r :
  sanity_check data = Ok r ->
  r = data /\ exists base items, getitem data "base" = Ok base /\ apps_of data = Ok items.
Proof.
  unfold sanity_check, apps_of. intros H.
  destruct (getitem data "base") as [base |]; [ | discriminate ].
  cbv beta iota delta [res_bind] in H.
  destruct (assert_keys _ _ _); [ | discriminate ].
  destruct (getitem data "apps") as [apps |]; [ | discriminate ].
  cbv beta iota delta [res_bind] in H |- *.
  destruct (iter apps) as [items |]; [ | discriminate ].
  destruct (check_apps 0 items); [ | discriminate ].
  injection H as <-. eauto.
Qed.

Lemma load_apps_ok w data :
  snd (load_apps w) = Ok data ->
  load_apps w = (emit (EvRead config_path) w, Ok data) /\ sanity_check data = Ok data.
Proof.
  intros H. pose proof (load_apps_world w) as Hw.
  destruct (load_apps w) as [wl r] eqn:Hl. simpl in *. subst wl r.
  split; [ reflexivity | ].
  unfold load_apps, bind, lift, read_file in Hl.
  destruct (stat (files w) _) as [[p [c | | t]] |]; try discriminate.
  destruct (json_loads c) as [d |]; [ | discriminate ].
  injection Hl as Hl. destruct (sanity_check_ok _ _ Hl) as [<- _]. exact Hl.
Qed.




End Running.

Lemma provisioner_runs_per_created_app_witness :
  exists rest,
    trace (fst (create_app (host := sample_host) sample_base myapp (fresh "one")))
      = ([EvExists "/srv/apps/myapp" false; EvMakedirs "/srv/apps/myapp";
          EvExists "/srv/base1" false;
          EvExec "git clone --single-branch --branch main https://example/repo.git /srv/base1" 0]
         ++ rest)%list /\
    Forall not_provisioning rest.
Proof.
  destruct (@provisioner_runs_per_created_app sample_host sample_base myapp "myapp" "base1"
              "git clone --single-branch --branch main https://example/repo.git /srv/base1"
              (fresh "one") eq_refl eq_refl eq_refl) as [_ H].
  destruct (H (fst (os_makedirs "/srv/apps/myapp"
                      (emit (EvExists "/srv/apps/myapp" false) (fresh "one")))))
    as (rest & E & F).
  - vm_compute. reflexivity.
  - vm_compute. reflexivity.
  - vm_compute in F. destruct F as (rc & rest' & -> & F & _).
    exists rest'. split; [ | exact F ].
    rewrite E. vm_compute in E.
    injection E as E _. vm_compute. rewrite E. reflexivity.
Defined.

(** C4 as stated fails: in a first run on two new apps the base
    repository's path is checked twice, each time after that app's folder
    has been made, and in the run that follows, where both apps are
    skipped, it is not checked at all. *)
Lemma provisioner_not_once_per_run :
  checks_of "/srv/base1" (trace after_first_run)
    = [EvExists "/srv/base1" false; EvExists "/srv/base1" true] /\
  firstn 4 (trace after_first_run)
    = [EvRead "/srv/apps.json"; EvExists "/srv/apps/myapp" false;
       EvMakedirs "/srv/apps/myapp"; EvExists "/srv/base1" false] /\
  checks_of "/srv/base1"
    (trace (fst (main (host := sample_host) (World (files after_first_run) [])))) = [].
Proof. vm_compute. auto. Qed.


Lemma load_apps_checks_keys_witness :
  exists msg,
    main (host := sample_host) (fresh "nobase")
      = (emit (EvRead "/srv/apps.json") (fresh "nobase"), Raise (AssertionError msg)).
Proof.
  destruct (@load_apps_checks_keys sample_host (fresh "nobase") "nobase"
              (VDict [("base", VDict []); ("apps", VList [])]) [] [])
    as (_ & msg & _ & H).
  - reflexivity.
  - reflexivity.
  - reflexivity.
  - reflexivity.
  - constructor.
  - exists msg. exact H.
Defined.






(** * Further properties of the script *)

Section Variables_more.
Context {host : Host}.

Ltac opaque_strings :=
  repeat match goal with
         | |- context [lower ?v] =>
             let s := fresh "s" in generalize (lower v); intros s
         | |- context [str ?v] =>
             let s := fresh "s" in generalize (str v); intros s
         end.

(** X1. The list of variables starts with the title and the name, each
    put between single quotes as it is, with no escaping; no later element
    assigns [@title] or [@name]. *)
Theorem title_and_name_lead base app app_dir vars :
  erb_vars base app = Ok (app_dir, vars) ->
  exists title name rest,
    getitem app "title" = Ok title /\
    getitem app "name" = Ok name /\
    vars = ("@title = '" ++ str title ++ "'") :: ("@name = '" ++ str name ++ "'") :: rest /\
    lines_of "title" rest = [] /\
    lines_of "name" rest = [].
Proof.
  intros H.
  destruct (erb_vars_inv _ _ _ _ H)
    as (title & name & custom & vm & isel & bimg & mem & mv & mlo & mhi
        & cpu & cv & clo & chi & Ht & Hn & _ & _ & _ & _
        & _ & _ & _ & _ & _ & _ & _ & _ & ->).
  exists title, name. eexists. repeat (split; [ assumption | ]).
  split; [ reflexivity | ].
  destruct (select_on mem), (select_on cpu), (select_on vm); simpl negb; cbv iota.
  all: split; opaque_strings; vm_compute; reflexivity.
Qed.


(** X3. A bound or a base image that the configuration leaves out is
    written as [None]: with [select] on and no [min] (or [max]) the line is
    [@..._min = None] (or [_max]), for memory and for cpu; and with the
    image's [select] off and no [base_image] the line is
    [@base_image = None]. *)
Theorem absent_values_render_None base app app_dir vars :
  erb_vars base app = Ok (app_dir, vars) ->
  (forall d, get app "memory" (VDict []) = Ok (VDict d) -> select_on (VDict d) = true ->
     (dict_get "min" d = None ->
      lines_of "custom_memory_per_node_min" vars = ["@custom_memory_per_node_min = None"]) /\
     (dict_get "max" d = None ->
      lines_of "custom_memory_per_node_max" vars = ["@custom_memory_per_node_max = None"])) /\
  (forall d, get app "cpu" (VDict []) = Ok (VDict d) -> select_on (VDict d) = true ->
     (dict_get "min" d = None ->
      lines_of "custom_num_cores_min" vars = ["@custom_num_cores_min = None"]) /\
     (dict_get "max" d = None ->
      lines_of "custom_num_cores_max" vars = ["@custom_num_cores_max = None"])) /\
  (forall d, effective_vm_image base app = Ok (VDict d) -> select_on (VDict d) = false ->
     dict_get "base_image" d = None ->
     lines_of "base_image" vars = ["@base_image = None"]).
Proof.
  intros H.
  destruct (erb_vars_inv _ _ _ _ H)
    as (title & name & custom & vm & isel & bimg & mem & mv & mlo & mhi
        & cpu & cv & clo & chi & _ & _ & _ & Hvm & _ & Hbimg
        & Hmem & _ & Hmlo & Hmhi & Hcpu & _ & Hclo & Hchi & ->).
  split; [ | split ].
  - intros d Hd Hs. rewrite Hmem in Hd. injection Hd as ->. rewrite Hs.
    simpl in Hmlo, Hmhi.
    split; intros Hnone; rewrite Hnone in *.
    + injection Hmlo as <-.
      destruct (select_on cpu), (select_on vm); simpl negb; cbv iota.
      all: change (str VNone) with "None"; opaque_strings; vm_compute; reflexivity.
    + injection Hmhi as <-.
      destruct (select_on cpu), (select_on vm); simpl negb; cbv iota.
      all: change (str VNone) with "None"; opaque_strings; vm_compute; reflexivity.
  - intros d Hd Hs. rewrite Hcpu in Hd. injection Hd as ->. rewrite Hs.
    simpl in Hclo, Hchi.
    split; intros Hnone; rewrite Hnone in *.
    + injection Hclo as <-.
      destruct (select_on mem), (select_on vm); simpl negb; cbv iota.
      all: change (str VNone) with "None"; opaque_strings; vm_compute; reflexivity.
    + injection Hchi as <-.
      destruct (select_on mem), (select_on vm); simpl negb; cbv iota.
      all: change (str VNone) with "None"; opaque_strings; vm_compute; reflexivity.
  - intros d Hd Hs Hnone. rewrite Hvm in Hd. injection Hd as ->. rewrite Hs.
    simpl in Hbimg. rewrite Hnone in Hbimg. injection Hbimg as <-.
    destruct (select_on mem), (select_on cpu); simpl negb; cbv iota.
    all: change (str VNone) with "None"; opaque_strings; vm_compute; reflexivity.
Qed.

End Variables_more.

Section Errors_more.
Context {host : Host}.
Open Scope prog_scope.

(** X4. The fields of an app are read only after its folder has been made
    and the artifacts copied: if deriving the variables raises (a [cpu]
    without [value], say, which the sanity check lets through),
    [create_app] raises that exception in the world the copies left, and
    [update_form_and_manifest] has written and run nothing. *)
Theorem bad_fields_found_after_copy base app name e w w1 w2 :
  named app name ->
  stat (files w) (dest_of name) = None ->
  os_makedirs (dest_of name) (emit (EvExists (dest_of name) false) w) = (w1, Ok tt) ->
  copy_base_repo base app w1 = (w2, Ok tt) ->
  erb_vars base app = Raise e ->
  update_form_and_manifest base app w2 = (w2, Raise e) /\
  create_app base app w = (w2, Raise e).
Proof.
  intros Hn Hs Hmk Hcp He.
  assert (Hu : update_form_and_manifest base app w2 = (w2, Raise e)).
  { unfold update_form_and_manifest, bind, lift. rewrite He. reflexivity. }
  split; [ exact Hu | ].
  rewrite (create_app_absent _ _ _ _ Hn Hs).
  rewrite (bind_ok _ _ _ _ _ Hmk), (bind_ok _ _ _ _ _ Hcp).
  apply bind_raise, Hu.
Qed.

(** X5. The sanity check asks only that [app_name] be there.  If the
    first app's [app_name] is not a string, the run raises [TypeError]
    when it joins the name to the apps folder: the configuration has been
    read and nothing else has happened. *)
Theorem non_string_app_name_stops_run w data app rest v :
  snd (load_apps w) = Ok data ->
  apps_of data = Ok (app :: rest) ->
  getitem app "app_name" = Ok v ->
  (forall s, v <> VStr s) ->
  main w = (emit (EvRead config_path) w, Raise TypeError).
Proof.
  intros Hl Hi Hn Hv.
  destruct (load_apps_ok _ _ Hl) as [Hload Hs].
  destruct (sanity_check_ok _ _ Hs) as (_ & base & items & Hb & Hi').
  unfold apps_of in Hi.
  destruct (getitem data "apps") as [apps |] eqn:Ha; [ | discriminate ].
  simpl in Hi. rewrite (main_unfold _ _ _ _ _ Hload Ha Hi).
  unfold main_loop. simpl for_each. apply bind_raise.
  unfold main_step, lift. unfold bind at 1. rewrite Hb.
  apply bind_raise. unfold create_app, bind, lift. rewrite Hn.
  destruct v; try reflexivity. contradiction (Hv s). reflexivity.
Qed.

(** X6. A document with no [base], or with a complete [base] and no
    [apps], fails the sanity check with a [KeyError], not an
    [AssertionError]; a document that is not a mapping fails it with a
    [TypeError]. *)
Theorem missing_section_is_KeyError :
  (forall d, dict_get "base" d = None ->
     sanity_check (VDict d) = Raise (KeyError "base")) /\
  (forall d b, dict_get "base" d = Some (VDict b) ->
     has_keys base_keys (VDict b) = true ->
     dict_get "apps" d = None ->
     sanity_check (VDict d) = Raise (KeyError "apps")) /\
  (forall data, ~ is_dict data -> sanity_check data = Raise TypeError).
Proof.
  split; [ | split ].
  - intros d H. unfold sanity_check, getitem. rewrite H. reflexivity.
  - intros d b Hb Hk Ha. unfold sanity_check, getitem. rewrite Hb.
    cbv beta iota delta [res_bind].
    pose proof (assert_keys_dict base_keys b
                  (fun key => "Base missing required attribute: " ++ key)) as Hc.
    rewrite Hk in Hc. rewrite Hc, Ha. reflexivity.
  - intros data H. destruct data; try reflexivity. contradiction H. exact I.
Qed.

Lemma assert_keys_first_missing pre k post d msg :
  has_keys pre (VDict d) = true ->
  dict_get k d = None ->
  assert_keys (pre ++ k :: post) (VDict d) msg = Raise (AssertionError (msg k)).
Proof.
  intros Hp Hk. induction pre as [| k' pre IH]; simpl in *.
  - rewrite bool_decide_false; [ reflexivity | ].
    rewrite Hk. intros [x Hx]. discriminate.
  - apply andb_prop in Hp as [H1 H2]. rewrite H1. simpl. apply IH, H2.
Qed.

(** X7. When the base is a mapping that lacks a required key, the
    assertion names the first such key in the order [app_type],
    [git_url], [git_dir], [git_branch], [vm_image],
    [use_custom_image_file], whatever the apps are. *)
Theorem base_error_names_first_missing_key data b pre k post :
  getitem data "base" = Ok (VDict b) ->
  base_keys = (pre ++ k :: post)%list ->
  has_keys pre (VDict b) = true ->
  dict_get k b = None ->
  sanity_check data
    = Raise (AssertionError ("Base missing required attribute: " ++ k)).
Proof.
  intros Hb Hk Hp Hn. unfold sanity_check. rewrite Hb, Hk.
  cbv beta iota delta [res_bind].
  rewrite (assert_keys_first_missing pre k post b _ Hp Hn). reflexivity.
Qed.

Lemma check_apps_first_bad good fields rest pre k post i :
  Forall (fun a => has_keys app_keys a = true) good ->
  app_keys = (pre ++ k :: post)%list ->
  has_keys pre (VDict fields) = true ->
  dict_get k fields = None ->
  check_apps i (good ++ VDict fields :: rest)
    = Raise (AssertionError
               ("App " ++ str_of_Z (Z.of_nat (i + List.length good))
                  ++ " is missing required attribute: " ++ k ++ " "
                  ++ str (VDict fields))).
Proof.
  intros Hg Hk Hp Hn. revert i.
  induction Hg as [| a good Ha _ IH]; intros i.
  - cbn [app check_apps List.length]. rewrite Nat.add_0_r, Hk.
    rewrite (assert_keys_first_missing pre k post fields _ Hp Hn). reflexivity.
  - cbn [app check_apps List.length].
    destruct a; try discriminate.
    pose proof (assert_keys_dict app_keys d
                  (fun key => "App " ++ str_of_Z (Z.of_nat i)
                                ++ " is missing required attribute: " ++ key ++ " "
                                ++ str (VDict d))) as Hc.
    rewrite Ha in Hc. rewrite Hc. cbv beta iota delta [res_bind].
    rewrite IH. replace (S i + List.length good) with (i + S (List.length good)) by lia.
    reflexivity.
Qed.

(** X8. When the base is complete and the apps are a list whose first
    incomplete entry is a mapping, the assertion names that entry's
    position in the list, counted from 0, the first required key it
    lacks in the order [app_name], [title], [name], [cpu], [memory], and
    the entry itself. *)
Theorem app_error_names_position data b good fields rest pre k post :
  getitem data "base" = Ok (VDict b) ->
  has_keys base_keys (VDict b) = true ->
  getitem data "apps" = Ok (VList (good ++ VDict fields :: rest)) ->
  Forall (fun a => has_keys app_keys a = true) good ->
  app_keys = (pre ++ k :: post)%list ->
  has_keys pre (VDict fields) = true ->
  dict_get k fields = None ->
  sanity_check data
    = Raise (AssertionError
               ("App " ++ str_of_Z (Z.of_nat (List.length good))
                  ++ " is missing required attribute: " ++ k ++ " "
                  ++ str (VDict fields))).
Proof.
  intros Hb Hbk Ha Hg Hk Hp Hn. unfold sanity_check. rewrite Hb, Ha.
  cbv beta iota delta [res_bind iter].
  pose proof (assert_keys_dict base_keys b
                (fun key => "Base missing required attribute: " ++ key)) as Hc.
  rewrite Hbk in Hc. rewrite Hc.
  rewrite (check_apps_first_bad good fields rest pre k post 0 Hg Hk Hp Hn).
  reflexivity.
Qed.

(** X9. With a configuration that loads and lists no app, the run reads
    the configuration, prints nothing, changes no file and returns. *)
Theorem no_apps_no_work w data :
  snd (load_apps w) = Ok data ->
  apps_of data = Ok [] ->
  main w = (emit (EvRead config_path) w, Ok tt).
Proof.
  intros Hl Hi. destruct (load_apps_ok _ _ Hl) as [Hload _].
  unfold apps_of in Hi.
  destruct (getitem data "apps") as [apps |] eqn:Ha; [ | discriminate ].
  simpl in Hi. rewrite (main_unfold _ _ _ _ _ Hload Ha Hi). reflexivity.
Qed.

(** X10. If the configuration file is missing the run raises
    [FileNotFoundError], and if its text is not JSON the run raises the
    decoder's error; either way the read of the file is the only event. *)
Theorem unreadable_config_stops_run w :
  (stat (files w) config_path = None ->
   main w = (emit (EvRead config_path) w, Raise (FileNotFoundError config_path))) /\
  (forall p text,
     stat (files w) config_path = Some (p, File text) ->
     json_loads text = None ->
     main w = (emit (EvRead config_path) w, Raise JSONDecodeError)).
Proof.
  split.
  - intros H. unfold main, load_apps, bind, read_file. fold config_path.
    rewrite H. reflexivity.
  - intros p text H Hj. unfold main, load_apps, bind, lift, read_file. fold config_path.
    rewrite H, Hj. reflexivity.
Qed.

End Errors_more.

Section Success_more.
Context {host : Host}.
Open Scope prog_scope.

Lemma exec_shell_ok cmd w w' :
  exec_shell cmd w = (w', Ok tt) ->
  trace w' = (trace w ++ [EvExec cmd 0])%list.
Proof.
  unfold exec_shell. destruct (sh cmd (files w)) as [fs' rc].
  destruct (Z.eqb_spec rc 0) as [-> | _]; [ | discriminate ].
  intros [= <-]. reflexivity.
Qed.

Lemma write_file_trace p content w w' r :
  write_file p content w = (w', r) ->
  trace w' = (trace w ++ [EvWrite p content])%list.
Proof.
  unfold write_file.
  repeat match goal with
         | |- context [match ?x with _ => _ end] => destruct x
         end; intros [= <- _]; reflexivity.
Qed.

Ltac bind_ok_in H w a Ha :=
  apply bind_inv in H as [(? & _ & ?) | (w & a & Ha & H)]; [ discriminate | ].

Ltac lift_ok_in H a Ha :=
  let w := fresh "w" in
  bind_ok_in H w a Ha; unfold lift in Ha; injection Ha as <- Ha.

(** The events of a [copy_base_repo] that returns. *)
Lemma copy_base_repo_ok base app w w' :
  copy_base_repo base app w = (w', Ok tt) ->
  exists git_dir name clone,
    getitem base "git_dir" = Ok (VStr git_dir) /\
    named app name /\
    let base_dir := path_join ROOT_DIR git_dir in
    let present := bool_decide (is_Some (stat (files w) base_dir)) in
    (if present then clone = []
     else exists cmd, clone_command base base_dir = Ok cmd /\ clone = [EvExec cmd 0]) /\
    trace w'
      = (trace w ++ [EvExists base_dir present] ++ clone
           ++ List.map (fun f => EvExec (copy_command base_dir (dest_of name) f) 0)
                artifacts)%list.
Proof.
  unfold copy_base_repo. intros H.
  lift_ok_in H git_dir Hg. lift_ok_in H base_dir Hj.
  destruct git_dir as [| | | | git_dir | |]; try discriminate.
  injection Hj as <-.
  bind_ok_in H w1 present Hp. unfold path_exists in Hp. injection Hp as <- <-.
  bind_ok_in H w2 u Hclone.
  lift_ok_in H app_name Hn. lift_ok_in H app_dir Hd.
  destruct app_name as [| | | | name | |]; try discriminate.
  injection Hd as <-.
  simpl for_each in H.
  bind_ok_in H w3 u1 H1. bind_ok_in H w4 u2 H2.
  bind_ok_in H w5 u3 H3. bind_ok_in H w6 u4 H4.
  unfold ret in H. injection H as <-. destruct u1, u2, u3, u4.
  apply exec_shell_ok in H1, H2, H3, H4.
  set (base_dir := path_join ROOT_DIR git_dir) in *.
  set (present := bool_decide (is_Some (stat (files w) base_dir))) in *.
  assert (Hc : exists clone,
             (if present then clone = []
              else exists cmd, clone_command base base_dir = Ok cmd /\
                               clone = [EvExec cmd 0]) /\
             trace w2 = (trace w ++ [EvExists base_dir present] ++ clone)%list).
  { subst present. destruct (bool_decide _).
    - unfold ret in Hclone. injection Hclone as <- _. exists []. auto.
    - lift_ok_in Hclone git_branch Hbr. lift_ok_in Hclone git_url Hu.
      destruct u. apply exec_shell_ok in Hclone.
      eexists. split.
      + eexists. split; [ | reflexivity ].
        unfold clone_command. rewrite Hbr, Hu. reflexivity.
      + rewrite Hclone. simpl. rewrite <- app_assoc. reflexivity. }
  destruct Hc as (clone & Hclone' & Ht).
  exists git_dir, name, clone.
  split; [ assumption | ]. split; [ assumption | ]. cbv zeta.
  split; [ exact Hclone' | ].
  rewrite H4, H3, H2, H1, Ht. unfold copy_command, dest_of. simpl.
  rewrite <- !app_assoc. reflexivity.
Qed.

(** The events of an [update_form_and_manifest] that returns. *)
Lemma update_form_and_manifest_ok base app w w' :
  update_form_and_manifest base app w = (w', Ok tt) ->
  exists app_dir vars,
    erb_vars base app = Ok (app_dir, vars) /\
    trace w' = (trace w ++ render_events app_dir (String.concat nl vars ++ nl))%list.
Proof.
  unfold update_form_and_manifest. intros H.
  lift_ok_in H dv Hv. destruct dv as [app_dir vars].
  bind_ok_in H w1 u0 Hw. apply write_file_trace in Hw.
  bind_ok_in H w2 u1 H1. bind_ok_in H w3 u2 H2.
  bind_ok_in H w4 u3 H3. bind_ok_in H w5 u4 H4.
  destruct u1, u2, u3, u4.
  apply exec_shell_ok in H, H1, H2, H3, H4.
  exists app_dir, vars. split; [ assumption | ].
  rewrite H, H4, H3, H2, H1, Hw. unfold render_events, render_command.
  rewrite <- !app_assoc. reflexivity.
Qed.

(** X11. When [create_app] returns [True] it has done, in this order and
    nothing else: found the app's folder missing; made it; checked the
    base repository's path in the file system [makedirs] left and, if it
    was missing, cloned it; copied
    the four artifacts; written the variables, one per line with a final
    newline, to [vars.rb]; rendered the form and the manifest; removed
    the two templates and [vars.rb]; and every command exited with 0. *)
Theorem created_app_trace base app w w' :
  create_app base app w = (w', Ok true) ->
  exists name git_dir vars clone,
    named app name /\
    getitem base "git_dir" = Ok (VStr git_dir) /\
    erb_vars base app = Ok (dest_of name, vars) /\
    let dest := dest_of name in
    let base_dir := path_join ROOT_DIR git_dir in
    let made := fst (os_makedirs dest (emit (EvExists dest false) w)) in
    let present := bool_decide (is_Some (stat (files made) base_dir)) in
    (if present then clone = []
     else exists cmd, clone_command base base_dir = Ok cmd /\ clone = [EvExec cmd 0]) /\
    trace w'
      = (trace w
           ++ [EvExists dest false; EvMakedirs dest; EvExists base_dir present]
           ++ clone
           ++ List.map (fun f => EvExec (copy_command base_dir dest f) 0) artifacts
           ++ render_events dest (String.concat nl vars ++ nl))%list.
Proof.
  intros H.
  destruct (create_app_inv _ _ _ _ _ H) as (name & Hn & Hs).
  rewrite (create_app_absent _ _ _ _ Hn Hs) in H.
  bind_ok_in H w1 u0 Hmk. bind_ok_in H w2 u1 Hcp. bind_ok_in H w3 u2 Hup.
  unfold ret in H. injection H as <-. destruct u0, u1, u2.
  assert (Hw1 : fst (os_makedirs (dest_of name) (emit (EvExists (dest_of name) false) w))
                = w1) by (rewrite Hmk; reflexivity).
  apply os_makedirs_trace in Hmk.
  destruct (copy_base_repo_ok _ _ _ _ Hcp)
    as (git_dir & name' & clone & Hg & Hn' & Hclone & Hcpt).
  unfold named in Hn'. rewrite Hn in Hn'. injection Hn' as <-.
  destruct (update_form_and_manifest_ok _ _ _ _ Hup) as (app_dir & vars & Hv & Hupt).
  assert (app_dir = dest_of name) as ->.
  { unfold erb_vars in Hv.
    destruct (getitem base "app_type"); [ | discriminate ].
    cbv beta iota delta [res_bind] in Hv. rewrite Hn in Hv.
    cbv beta iota delta [res_bind os_path_join] in Hv. fold (dest_of name) in Hv.
    repeat match type of Hv with
           | match ?x with _ => _ end = _ => destruct x; [ | discriminate ]
           end.
    injection Hv as -> _. reflexivity. }
  exists name, git_dir, vars, clone.
  split; [ assumption | ]. split; [ assumption | ]. split; [ assumption | ].
  cbv zeta. rewrite Hw1. split; [ exact Hclone | ].
  rewrite Hupt, Hcpt, Hmk. unfold emit. cbn [trace].
  rewrite <- !app_assoc. reflexivity.
Qed.

End Success_more.

Section Variables_and_base.
Context {host : Host}.

(** X12. The variables of an app depend on the base only through
    [use_custom_image_file], [vm_image] and the presence of [app_type]:
    two bases that agree on these give the same result, whatever their
    [git_url], [git_dir], [git_branch] and the value of [app_type]. *)
Theorem variables_ignore_repository_settings b1 b2 app :
  (is_Some (dict_get "app_type" b1) <-> is_Some (dict_get "app_type" b2)) ->
  dict_get "use_custom_image_file" b1 = dict_get "use_custom_image_file" b2 ->
  dict_get "vm_image" b1 = dict_get "vm_image" b2 ->
  erb_vars (VDict b1) app = erb_vars (VDict b2) app.
Proof.
  intros Ht Hc Hv.
  assert (Ec : getitem (VDict b1) "use_custom_image_file"
               = getitem (VDict b2) "use_custom_image_file")
    by (unfold getitem; rewrite Hc; reflexivity).
  assert (Ev : getitem (VDict b1) "vm_image" = getitem (VDict b2) "vm_image")
    by (unfold getitem; rewrite Hv; reflexivity).
  unfold erb_vars. rewrite Ec, Ev.
  change (getitem (VDict b1) "app_type")
    with (match dict_get "app_type" b1 with
          | Some v => Ok v
          | None => Raise (KeyError "app_type")
          end).
  change (getitem (VDict b2) "app_type")
    with (match dict_get "app_type" b2 with
          | Some v => Ok v
          | None => Raise (KeyError "app_type")
          end).
  destruct (dict_get "app_type" b1) as [t1 |], (dict_get "app_type" b2) as [t2 |].
  - reflexivity.
  - destruct (proj1 Ht) as [x Hx]; [ eauto | discriminate ].
  - destruct (proj2 Ht) as [x Hx]; [ eauto | discriminate ].
  - reflexivity.
Qed.

End Variables_and_base.

Lemma title_and_name_lead_witness :
  exists title name rest,
    getitem myapp "title" = Ok title /\
    getitem myapp "name" = Ok name /\
    myapp_vars
      = ("@title = '" ++ str (host := sample_host) title ++ "'")
          :: ("@name = '" ++ str (host := sample_host) name ++ "'") :: rest /\
    lines_of "title" rest = [] /\
    lines_of "name" rest = [].
Proof.
  apply (@title_and_name_lead sample_host sample_base myapp "/srv/apps/myapp").
  vm_compute. reflexivity.
Defined.


Lemma absent_values_render_None_witness :
  lines_of "custom_memory_per_node_min" openapp_vars
    = ["@custom_memory_per_node_min = None"] /\
  lines_of "base_image" openapp_vars = ["@base_image = None"].
Proof.
  destruct (@absent_values_render_None sample_host sample_base openapp "/srv/apps/openapp"
              openapp_vars eq_refl) as (Hm & _ & Hi).
  split.
  - apply (Hm [("value", VInt 4096); ("select", VBool true)]); reflexivity.
  - apply (Hi []); reflexivity.
Defined.

Lemma bad_fields_found_after_copy_witness :
  sanity_check (host := sample_host) (config [novalue]) = Ok (config [novalue]) /\
  snd (create_app (host := sample_host) sample_base novalue (fresh "one"))
    = Raise (KeyError "value") /\
  is_Some (files (fst (create_app (host := sample_host) sample_base novalue (fresh "one")))
             !! "/srv/apps/novalue/form.yml.erb").
Proof.
  pose (w1 := fst (os_makedirs "/srv/apps/novalue"
                     (emit (EvExists "/srv/apps/novalue" false) (fresh "one")))).
  pose (w2 := fst (copy_base_repo (host := sample_host) sample_base novalue w1)).
  destruct (@bad_fields_found_after_copy sample_host sample_base novalue "novalue"
              (KeyError "value") (fresh "one") w1 w2) as [_ H].
  - reflexivity.
  - vm_compute. reflexivity.
  - vm_compute. reflexivity.
  - vm_compute. reflexivity.
  - vm_compute. reflexivity.
  - split; [ vm_compute; reflexivity | ]. rewrite H.
    split; [ reflexivity | ]. vm_compute. eauto.
Defined.

Lemma non_string_app_name_stops_run_witness :
  main (host := more_host) (fresh "numbered")
    = (emit (EvRead "/srv/apps.json") (fresh "numbered"), Raise TypeError).
Proof.
  apply (@non_string_app_name_stops_run more_host (fresh "numbered")
           (config [numbered; myapp]) numbered [myapp] (VInt 7)).
  - reflexivity.
  - reflexivity.
  - reflexivity.
  - intros s. discriminate.
Defined.

Lemma missing_section_is_KeyError_witness :
  sanity_check (host := sample_host) (VDict [("apps", VList [])]) = Raise (KeyError "base").
Proof.
  apply (proj1 (@missing_section_is_KeyError sample_host)). reflexivity.
Defined.

Lemma base_error_names_first_missing_key_witness :
  sanity_check (host := sample_host) (VDict [("base", thin_base); ("apps", VList [])])
    = Raise (AssertionError "Base missing required attribute: git_url").
Proof.
  apply (@base_error_names_first_missing_key sample_host
           (VDict [("base", thin_base); ("apps", VList [])])
           [("app_type", VStr "windows_vm")] ["app_type"] "git_url"
           ["git_dir"; "git_branch"; "vm_image"; "use_custom_image_file"]);
    reflexivity.
Defined.

Lemma app_error_names_position_witness :
  sanity_check (host := sample_host) (config [myapp; thin_app; bigapp])
    = Raise (AssertionError
               "App 1 is missing required attribute: title {'app_name': 'thin'}").
Proof.
  apply (@app_error_names_position sample_host (config [myapp; thin_app; bigapp])
           [("app_type", VStr "windows_vm");
            ("git_url", VStr "https://example/repo.git");
            ("git_dir", VStr "base1");
            ("git_branch", VStr "main");
            ("vm_image", VDict [("select", VBool false); ("base_image", VStr "centos7")]);
            ("use_custom_image_file", VBool false)]
           [myapp] [("app_name", VStr "thin")] [bigapp]
           ["app_name"] "title" ["name"; "cpu"; "memory"]).
  - reflexivity.
  - reflexivity.
  - reflexivity.
  - repeat constructor.
  - reflexivity.
  - reflexivity.
  - reflexivity.
Defined.

Lemma no_apps_no_work_witness :
  main (host := more_host) (fresh "empty")
    = (emit (EvRead "/srv/apps.json") (fresh "empty"), Ok tt).
Proof.
  apply (@no_apps_no_work more_host (fresh "empty") (config [])); reflexivity.
Defined.

Lemma unreadable_config_stops_run_witness :
  main (host := sample_host) (World ∅ [])
    = (emit (EvRead "/srv/apps.json") (World ∅ []),
       Raise (FileNotFoundError "/srv/apps.json")) /\
  main (host := sample_host) (fresh "{")
    = (emit (EvRead "/srv/apps.json") (fresh "{"), Raise JSONDecodeError).
Proof.
  split.
  - apply (proj1 (@unreadable_config_stops_run sample_host (World ∅ []))).
    reflexivity.
  - apply (proj2 (@unreadable_config_stops_run sample_host (fresh "{"))
             "/srv/apps.json" "{"); reflexivity.
Defined.

Lemma created_app_trace_witness :
  trace (fst (create_app (host := sample_host) sample_base myapp (fresh "one")))
    = [EvExists "/srv/apps/myapp" false;
       EvMakedirs "/srv/apps/myapp";
       EvExists "/srv/base1" false;
       EvExec "git clone --single-branch --branch main https://example/repo.git /srv/base1" 0;
       EvExec "cp -R /srv/base1/form.yml.erb /srv/apps/myapp/form.yml.erb" 0;
       EvExec "cp -R /srv/base1/manifest.yml.erb /srv/apps/myapp/manifest.yml.erb" 0;
       EvExec "cp -R /srv/base1/submit.yml.erb /srv/apps/myapp/submit.yml.erb" 0;
       EvExec "cp -R /srv/base1/template /srv/apps/myapp/template" 0;
       EvWrite "/srv/apps/myapp/vars.rb" (String.concat nl myapp_vars ++ nl);
       EvExec ("erb -T - -r /srv/apps/myapp/vars.rb /srv/apps/myapp/form.yml.erb"
                 ++ " > /srv/apps/myapp/form.yml") 0;
       EvExec ("erb -T - -r /srv/apps/myapp/vars.rb /srv/apps/myapp/manifest.yml.erb"
                 ++ " > /srv/apps/myapp/manifest.yml") 0;
       EvExec "rm /srv/apps/myapp/form.yml.erb" 0;
       EvExec "rm /srv/apps/myapp/manifest.yml.erb" 0;
       EvExec "rm /srv/apps/myapp/vars.rb" 0].
Proof.
  destruct (@created_app_trace sample_host sample_base myapp (fresh "one")
              (fst (create_app (host := sample_host) sample_base myapp (fresh "one"))))
    as (name & git_dir & vars & clone & Hn & Hg & Hv & Hc & Ht).
  - vm_compute. reflexivity.
  - injection Hn as <-. injection Hg as <-. injection Hv as <-.
    vm_compute in Hc. destruct Hc as (cmd & Hcmd & ->). injection Hcmd as <-.
    rewrite Ht. vm_compute. reflexivity.
Defined.

Lemma variables_ignore_repository_settings_witness :
  erb_vars (host := sample_host) sample_base bigapp
    = erb_vars (host := sample_host) other_base bigapp.
Proof.
  apply (@variables_ignore_repository_settings sample_host).
  - vm_compute. split; eauto.
  - reflexivity.
  - reflexivity.
Defined.
